(** * envd-server: the ContainerSSH webhooks of [pkg/server/containerssh.go]

    A shallow embedding of the two gin handlers [OnConfig] and [OnPubKey]
    together with the library functions they call, followed by the
    properties of the route resolution and of the public-key verdict. *)

From Stdlib Require Import ZArith List String Ascii Bool Lia.
From Stdlib Require Import Strings.Byte.
Import ListNotations.

Local Open Scope Z_scope.
Local Open Scope string_scope.
Local Open Scope list_scope.

(** ** Go values *)

(** A Go [[]byte]. *)
Definition bytes := list Byte.byte.

(** The numeric value of a byte, in [0, 256). *)
Definition byte_val (b : Byte.byte) : Z := Z.of_N (Byte.to_N b).

(** A value that fits in eight bits. *)
Definition fits8 (z : Z) : Prop := Z.shiftr z 8 = 0.

(** [[]byte(s)] for a Go string [s]. *)
Definition bytes_of_string (s : string) : bytes := list_byte_of_string s.

(** Go [error] values.  [ErrNoRows] is the sentinel [pgx.ErrNoRows], itself
    made by the standard [errors.New("no rows in result set")]; [ErrNew msg]
    is any other [errors.New(msg)]; [ErrWrap msg cause] is
    [fmt.Errorf(msg + ": %w", cause)], whose [Unwrap] returns [cause]. *)
Inductive error : Type :=
| ErrNoRows
| ErrNew (msg : string)
| ErrWrap (msg : string) (cause : error).

(** The Go idiom [(v, err)]: either a value or a non-nil error. *)
Inductive result (A : Type) : Type :=
| Ok (v : A)
| Err (e : error).
Arguments Ok {A} v.
Arguments Err {A} e.

Module errors.

(** The method [Error()]: the message, a wrapper's followed by its
    cause's. *)
Fixpoint Error (err : error) : string :=
  match err with
  | ErrNoRows => "no rows in result set"
  | ErrNew msg => msg
  | ErrWrap msg cause => msg ++ ": " ++ Error cause
  end.

(** The type marks of an error and of the errors it wraps, outermost
    first ([errbase.GetTypeMark] along [UnwrapOnce]). *)
Fixpoint types (err : error) : list string :=
  match err with
  | ErrNoRows => ["errors/*errors.errorString"]
  | ErrNew _ => ["errors/*errors.errorString"]
  | ErrWrap _ cause => "fmt/*fmt.wrapError" :: types cause
  end.

Fixpoint equalTypes (a b : list string) : bool :=
  match a, b with
  | [], [] => true
  | t :: a', u :: b' => String.eqb t u && equalTypes a' b'
  | _, _ => false
  end.

(** [equalMarks(getMark(err), getMark(reference))]: the same message and
    the same chain of types. *)
Definition equalMarks (err reference : error) : bool :=
  String.eqb (Error err) (Error reference) &&
  equalTypes (types err) (types reference).

(** [errors.Is(err, reference)] of [github.com/cockroachdb/errors], the
    package the source imports: some error on the [Unwrap] chain of [err]
    is [reference] itself or has its mark.  An error has its own mark, so
    the test of marks along the chain decides both. *)
Fixpoint Is (err reference : error) : bool :=
  equalMarks err reference ||
  match err with
  | ErrWrap _ cause => Is cause reference
  | _ => false
  end.

End errors.

(** ** [crypto/subtle] (Go standard library) *)

Module subtle.

(** [uint32] arithmetic wraps modulo [2^32]. *)
Definition uint32 (z : Z) : Z := z mod 2 ^ 32.

(** [func ConstantTimeByteEq(x, y uint8) int {
       return int((uint32(x^y) - 1) >> 31) }] *)
Definition ConstantTimeByteEq (x y : Z) : Z :=
  Z.shiftr (uint32 (uint32 (Z.lxor x y) - 1)) 31.

(** The loop [for i := 0; i < len(x); i++ { v |= x[i] ^ y[i] }], started
    at index [i] with [n] iterations left. *)
Fixpoint xor_loop (x y : bytes) (i : nat) (n : nat) (v : Z) : Z :=
  match n with
  | O => v
  | S n' =>
      let xi := byte_val (nth i x Byte.x00) in
      let yi := byte_val (nth i y Byte.x00) in
      xor_loop x y (S i) n' (Z.lor v (Z.lxor xi yi))
  end.

(** [func ConstantTimeCompare(x, y []byte) int {
       if len(x) != len(y) { return 0 }
       var v byte
       for i := 0; i < len(x); i++ { v |= x[i] ^ y[i] }
       return ConstantTimeByteEq(v, 0) }] *)
Definition ConstantTimeCompare (x y : bytes) : Z :=
  if negb (Nat.eqb (List.length x) (List.length y)) then 0
  else
    let v := xor_loop x y 0 (List.length x) 0 in
    ConstantTimeByteEq v 0.

(** *** The same function with its observable run recorded.

    What a timing observer can learn from a run: the outcome of every
    branch taken and the index of every slice element read (not the
    element). *)
Inductive event : Type :=
  | Branch (taken : bool)
  | Access (index : nat).

Definition leakage := list event.

(** One iteration: the loop test succeeds, [x[i]] and [y[i]] are read. *)
Fixpoint xor_loop_run (x y : bytes) (i : nat) (n : nat) (v : Z)
    (t : leakage) : Z * leakage :=
  match n with
  | O => (v, t ++ [Branch false])
  | S n' =>
      let xi := byte_val (nth i x Byte.x00) in
      let yi := byte_val (nth i y Byte.x00) in
      xor_loop_run x y (S i) n' (Z.lor v (Z.lxor xi yi))
                   (t ++ [Branch true; Access i; Access i])
  end.

Definition ConstantTimeCompare_run (x y : bytes) : Z * leakage :=
  let differ := negb (Nat.eqb (List.length x) (List.length y)) in
  if differ then (0, [Branch differ])
  else
    let '(v, t) := xor_loop_run x y 0 (List.length x) 0 [Branch differ] in
    (ConstantTimeByteEq v 0, t).

End subtle.

(** ** [go.containerssh.io/libcontainerssh/config]

    The webhook schema; of each struct, the fields the handlers read or
    set (Go leaves every other field at its zero value). *)

Module config.

Module Request.
Record t : Type := Build { Username : string }.
End Request.

Module SSHProxyConfig.
Record t : Type := Build {
    Server : string;
    Port : Z;
    Username : string;
    AllowedHostKeyFingerprints : list string
  }.

Definition set_AllowedHostKeyFingerprints (c : t) (fps : list string) : t :=
  Build (Server c) (Port c) (Username c) fps.
End SSHProxyConfig.

Module AppConfig.
Record t : Type := Build {
    Backend : string;
    SSHProxy : SSHProxyConfig.t
  }.

Definition set_SSHProxy (c : t) (p : SSHProxyConfig.t) : t :=
  Build (Backend c) p.
End AppConfig.

Module ResponseBody.
Record t : Type := Build { Config : AppConfig.t }.
End ResponseBody.

End config.

(** ** [go.containerssh.io/libcontainerssh/auth] *)

Module auth.

Module PublicKey.
Record t : Type := Build { PublicKey : string }.
End PublicKey.

Module PublicKeyAuthRequest.
Record t : Type := Build {
    Username : string;
    PublicKey : PublicKey.t
  }.
End PublicKeyAuthRequest.

Module ResponseBody.
Record t : Type := Build { Success : bool }.
End ResponseBody.

End auth.

(** ** Strings cut at a one-character separator (Go package [strings]) *)

Module strings.

(** [strings.Count(s, sep)]. *)
Fixpoint Count (s : string) (sep : ascii) : nat :=
  match s with
  | EmptyString => O
  | String ch rest =>
      if Ascii.eqb ch sep then S (Count rest sep) else Count rest sep
  end.

(** [before, after, _ := strings.Cut(s, sep)]: the text before the first
    [sep] (all of [s] when there is none) *)
Fixpoint before (sep : ascii) (s : string) : string :=
  match s with
  | EmptyString => EmptyString
  | String ch rest =>
      if Ascii.eqb ch sep then EmptyString
      else String ch (before sep rest)
  end.

(** and the text after it (empty when there is none). *)
Fixpoint after (sep : ascii) (s : string) : string :=
  match s with
  | EmptyString => EmptyString
  | String ch rest =>
      if Ascii.eqb ch sep then rest else after sep rest
  end.

End strings.

(** ** [sshname]: the identity encoding *)

Module sshname.

(** Modelled from the spec: the fixed delimiter of [owner#target]. *)
Definition delimiter : ascii := "#"%char.

(** Modelled from the spec: the one error of the decoder. *)
Definition MalformedIdentity : error := ErrNew "malformed identity".

(** Modelled from the spec: [sshname.GetInfo], the decoder both handlers
    call, belongs to the package [github.com/tensorchord/envd-server/sshname],
    which is not among the sources.  The spec's [decode]: a username is
    [owner#target]; without exactly one delimiter, or with an empty owner
    or target segment, it is malformed and rejected.  The pair returned is
    [(owner, target)], in the order of the call sites
    [owner, name, err := sshname.GetInfo(req.Username)]. *)
Definition GetInfo (username : string) : result (string * string) :=
  if negb (Nat.eqb (strings.Count username delimiter) 1)
  then Err MalformedIdentity
  else
    let owner := strings.before delimiter username in
    let target := strings.after delimiter username in
    if String.eqb owner "" || String.eqb target "" then Err MalformedIdentity
    else Ok (owner, target).

End sshname.

(** ** The collaborators of package [server] *)

(** Functions of other packages that the handlers call and whose code is
    outside this file: gin's JSON binding of the request body (what the
    body decodes to, and what the decoder leaves of it unread), the username
    decoder [sshname.GetInfo], and [golang.org/x/crypto/ssh]
    ([ssh.ParseAuthorizedKey]; [Marshal] is the method of the interface
    [ssh.PublicKey] giving the key's wire encoding). *)
Class Collaborators : Type := {
  BindJSON_config : string -> result config.Request.t;
  BindJSON_pubkey : string -> result auth.PublicKeyAuthRequest.t;
  BindJSON_unread : string -> string;
  GetInfo : string -> result (string * string);
  PublicKey : Type;
  ParseAuthorizedKey : bytes -> result PublicKey;
  Marshal : PublicKey -> bytes
}.

Module User.
(** Modelled from the spec: the row [GetUser] returns (package [query], not
    among the sources), [UserRecord {owner, storedPublicKey}]. *)
Record t : Type := Build {
  LoginName : string;
  PublicKey : bytes
}.
End User.

(** Modelled from the spec: the user store behind [s.Queries] (package
    [query], not among the sources), through the one method the handlers
    call, [getUser(owner) -> UserRecord, fails with NotFound | StoreError].
    [OnPubKey] recognises a missing record by [pgx.ErrNoRows]. *)
Record Querier : Type := {
  GetUser : string -> result User.t
}.

(** Modelled from the spec: the struct [Server] is declared in another file
    of the package; of its fields, the two the handlers use, the user store
    and the process-wide set of trusted host-key fingerprints. *)
Record Server : Type := {
  Queries : Querier;
  serverFingerPrints : list string
}.

(** What a handler hands to [c.JSON]. *)
Inductive payload : Type :=
| JError (err : error)
| JString (s : string)
| JConfig (res : config.ResponseBody.t)
| JAuth (res : auth.ResponseBody.t).

(** [*gin.Context]: what is still unread of the request body, the status
    of the response once its header is written, [c.Errors], whether the
    chain was aborted, and the calls of [c.JSON] made so far, each a status
    code with its payload. *)
Record Context : Type := {
  body : string;
  status : option Z;
  errs : list error;
  aborted : bool;
  responses : list (Z * payload)
}.

(** A [logrus] entry at level error. *)
Inductive entry : Type :=
| LogError (err : error) (msg : string).

(** Everything a handler can read or change; [observed] is what the key
    comparisons run so far have let a timing observer see. *)
Record World : Type := {
  ctx : Context;
  srv : Server;
  logged : list entry;
  observed : subtle.leakage
}.

(** ** Handlers as state transformers *)

Definition M (A : Type) : Type := World -> A * World.

Definition ret {A : Type} (a : A) : M A := fun w => (a, w).

Definition bind {A B : Type} (m : M A) (k : A -> M B) : M B :=
  fun w => let '(a, w') := m w in k a w'.

Notation "x <- m ;; k" := (bind m (fun x => k))
  (at level 61, m at next level, right associativity).
Notation "m ;; k" := (bind m (fun _ => k))
  (at level 61, right associativity).

(** The world with its context replaced: [c] is a pointer, what a method
    writes through it stays written. *)
Definition with_ctx (w : World) (c : Context) : World :=
  {| ctx := c; srv := srv w; logged := logged w; observed := observed w |}.

(** [c.Writer.WriteHeader(code)]: the status is set unless the header is
    already written, in which case gin keeps the first one. *)
Definition WriteHeader (code : Z) (written : option Z) : option Z :=
  match written with
  | Some first => Some first
  | None => Some code
  end.

(** [c.BindJSON(&req)], gin's [MustBindWith]: the JSON decoder reads the
    request body; when it fails, [c.AbortWithError(400, err)] writes the
    header with status 400, records the error in [c.Errors] and aborts the
    chain, and the error is returned to the handler. *)
Definition c_BindJSON {A : Type} (decode : string -> result A)
    (unread : string -> string) : M (result A) :=
  fun w =>
    let c := ctx w in
    let r := decode (body c) in
    (r, with_ctx w
          {| body := unread (body c);
             status := match r with
                       | Ok _ => status c
                       | Err _ => WriteHeader 400 (status c)
                       end;
             errs := match r with
                     | Ok _ => errs c
                     | Err e => errs c ++ [e]
                     end;
             aborted := match r with
                        | Ok _ => aborted c
                        | Err _ => true
                        end;
             responses := responses c |}).

(** [c.JSON(code, obj)]: sets the status, if the header is not written
    yet, and writes the body. *)
Definition c_JSON (code : Z) (obj : payload) : M unit :=
  fun w =>
    let c := ctx w in
    (tt, with_ctx w
           {| body := body c;
              status := WriteHeader code (status c);
              errs := errs c;
              aborted := aborted c;
              responses := responses c ++ [(code, obj)] |}).

(** [logrus.WithError(err).Error(msg)] (and [Errorf]); fields added with
    [WithField] are not recorded. *)
Definition logrus_Error (err : error) (msg : string) : M unit :=
  fun w =>
    (tt, {| ctx := ctx w; srv := srv w;
            logged := logged w ++ [LogError err msg];
            observed := observed w |}).

(** [subtle.ConstantTimeCompare(x, y)] as the handler runs it: the result,
    and the run's leakage added to what has been observed. *)
Definition subtle_ConstantTimeCompare (x y : bytes) : M Z :=
  fun w =>
    (fst (subtle.ConstantTimeCompare_run x y),
     {| ctx := ctx w; srv := srv w; logged := logged w;
        observed := observed w ++ snd (subtle.ConstantTimeCompare_run x y) |}).

(** [s.serverFingerPrints]. *)
Definition s_serverFingerPrints : M (list string) :=
  fun w => (serverFingerPrints (srv w), w).

(** [s.Queries.GetUser(context.Background(), owner)]. *)
Definition s_Queries_GetUser (owner : string) : M (result User.t) :=
  fun w => (GetUser (Queries (srv w)) owner, w).

Section Handlers.

Context `{Collaborators}.

(** [func (s *Server) OnConfig(c *gin.Context)] *)
Definition OnConfig : M unit :=
  r <- c_BindJSON BindJSON_config BindJSON_unread ;;
  match r with
  | Err err => c_JSON 500 (JError err)
  | Ok req =>
      match GetInfo (config.Request.Username req) with
      | Err err => c_JSON 500 (JError err)
      | Ok (_, name) =>
          let cfg :=
            config.AppConfig.Build "sshproxy"
              (config.SSHProxyConfig.Build name 2222 "envd" []) in
          fingerprints <- s_serverFingerPrints ;;
          let cfg :=
            config.AppConfig.set_SSHProxy cfg
              (config.SSHProxyConfig.set_AllowedHostKeyFingerprints
                 (config.AppConfig.SSHProxy cfg) fingerprints) in
          let res := config.ResponseBody.Build cfg in
          c_JSON 200 (JConfig res)
      end
  end.

(** [func (s *Server) OnPubKey(c *gin.Context)] *)
Definition OnPubKey : M unit :=
  r <- c_BindJSON BindJSON_pubkey BindJSON_unread ;;
  match r with
  | Err err =>
      logrus_Error err "failed to bind the json" ;;
      c_JSON 500 (JError err)
  | Ok req =>
      match GetInfo (auth.PublicKeyAuthRequest.Username req) with
      | Err err => c_JSON 500 (JError err)
      | Ok (owner, _) =>
          u <- s_Queries_GetUser owner ;;
          match u with
          | Err err =>
              if errors.Is err ErrNoRows then
                logrus_Error err "user not found" ;;
                c_JSON 500 (JString "user not found")
              else
                logrus_Error err ("db query failed: " ++ errors.Error err) ;;
                c_JSON 500 (JString "Internal error")
          | Ok user =>
              match ParseAuthorizedKey
                      (bytes_of_string
                         (auth.PublicKey.PublicKey
                            (auth.PublicKeyAuthRequest.PublicKey req))) with
              | Err err =>
                  logrus_Error err "failed to parse key" ;;
                  c_JSON 500 (JError err)
              | Ok key =>
                  same <- subtle_ConstantTimeCompare (Marshal key)
                            (User.PublicKey user) ;;
                  if Z.eqb same 1
                  then
                    let res := auth.ResponseBody.Build true in
                    c_JSON 200 (JAuth res)
                  else
                    let res := auth.ResponseBody.Build false in
                    c_JSON 200 (JAuth res)
              end
          end
      end
  end.

End Handlers.

(** The world in which a handler starts on a fresh request. *)
(** The context gin hands to a handler for a request: nothing read,
    nothing written. *)
Definition fresh (request_body : string) : Context :=
  {| body := request_body; status := None; errs := []; aborted := false;
     responses := [] |}.

Definition incoming (sv : Server) (request_body : string) : World :=
  {| ctx := fresh request_body;
     srv := sv;
     logged := [];
     observed := [] |}.

(** What the handler answered: its calls of [c.JSON]. *)
Definition answer (h : M unit) (w : World) : list (Z * payload) :=
  responses (ctx (snd (h w))).

(** The world of the next request: a fresh context, the process state as
    the previous handler left it. *)
Definition next_request (w : World) (request_body : string) : World :=
  {| ctx := fresh request_body;
     srv := srv w;
     logged := logged w;
     observed := observed w |}.

(** ** A small deployment on which the handlers can be run *)

Module Demo.

(** A request body is [username] for [/config] and [username key] for
    [/pubkey]; a key line is its own wire encoding. *)
Definition bind_config (b : string) : result config.Request.t :=
  if String.eqb b "" then Err (ErrNew "EOF")
  else Ok (config.Request.Build b).

Definition bind_pubkey (b : string) : result auth.PublicKeyAuthRequest.t :=
  if String.eqb b "" then Err (ErrNew "EOF")
  else Ok (auth.PublicKeyAuthRequest.Build
             (strings.before " "%char b)
             (auth.PublicKey.Build (strings.after " "%char b))).

Definition parse_key (line : bytes) : result bytes :=
  match line with
  | [] => Err (ErrNew "ssh: no key found")
  | _ => Ok line
  end.

#[export] Instance collaborators : Collaborators := {
    BindJSON_config := bind_config;
    BindJSON_pubkey := bind_pubkey;
    BindJSON_unread := fun _ => EmptyString;
    GetInfo := sshname.GetInfo;
    PublicKey := bytes;
    ParseAuthorizedKey := parse_key;
    Marshal := fun key => key
  }.

(** The key [K] registered for [alice]. *)
Definition K : string := "AAAAC3Nz".

Definition alice : User.t := User.Build "alice" (bytes_of_string K).

(** [alice] is the one user; looking up [mallory] reaches a store that
    is down. *)
Definition store : Querier :=
  {| GetUser := fun owner =>
       if String.eqb owner "alice" then Ok alice
       else if String.eqb owner "mallory"
       then Err (ErrWrap "query" (ErrNew "connection refused"))
       else Err ErrNoRows |}.

Definition server : Server :=
  {| Queries := store; serverFingerPrints := ["SHA256:aaaa"; "SHA256:bbbb"] |}.

(** A [/pubkey] request and the world it arrives in. *)
Definition pubkey_request (username key : string) : auth.PublicKeyAuthRequest.t :=
  auth.PublicKeyAuthRequest.Build username (auth.PublicKey.Build key).

Definition pubkey_call (username key : string) : World :=
  incoming server (username ++ " " ++ key).

(** A [/config] request and the world it arrives in. *)
Definition config_request (username : string) : config.Request.t :=
  config.Request.Build username.

Definition config_call (username : string) : World :=
  incoming server username.

(** The configuration that routes to [target]. *)
Definition route_to (target : string) : payload :=
  JConfig
    (config.ResponseBody.Build
       (config.AppConfig.Build "sshproxy"
          (config.SSHProxyConfig.Build target 2222 "envd"
             (serverFingerPrints server)))).

Definition verdict (success : bool) : payload :=
  JAuth (auth.ResponseBody.Build success).

(** The same deployment with no user registered, *)
Definition server_without_users : Server :=
  {| Queries := {| GetUser := fun _ => Err ErrNoRows |};
     serverFingerPrints := serverFingerPrints server |}.

(** with other fingerprints, *)
Definition server_repinned : Server :=
  {| Queries := store; serverFingerPrints := ["SHA256:cccc"] |}.

(** with a store whose driver wraps the missing row twice, *)
Definition server_wrapping : Server :=
  {| Queries :=
       {| GetUser := fun _ =>
            Err (ErrWrap "get user" (ErrWrap "scan" ErrNoRows)) |};
     serverFingerPrints := serverFingerPrints server |}.

(** and with a store that reports a missing row by an error of its own
    making, with the sentinel's text. *)
Definition server_homemade : Server :=
  {| Queries :=
       {| GetUser := fun _ =>
            Err (ErrWrap "scan" (ErrNew "no rows in result set")) |};
     serverFingerPrints := serverFingerPrints server |}.

End Demo.

(** ** Tactics for handler runs *)

(** Unfold one handler run down to its decision points. *)
Ltac run_handler :=
  unfold answer, OnConfig, OnPubKey, bind, c_BindJSON, c_JSON, logrus_Error,
    s_serverFingerPrints, s_Queries_GetUser, subtle_ConstantTimeCompare,
    with_ctx, incoming, next_request, fresh;
  cbn [fst snd ctx srv logged observed body responses].

(** Decide a handler run from the facts at hand. *)
Ltac settle :=
  repeat (cbn [fst snd ctx srv logged observed body responses];
          match goal with
          | Heq : ?lhs = _ |- context [?lhs] => rewrite Heq
          end);
  cbn [fst snd ctx srv logged observed body responses].

(** Split a handler run into its paths. *)
Ltac by_paths :=
  repeat (cbn [fst snd ctx srv logged observed body status responses
                 Queries serverFingerPrints];
          match goal with
          | |- context [match ?r with Ok _ => _ | Err _ => _ end] =>
              destruct r as [?|?] eqn:?
          | |- context [let (_, _) := ?p in _] => destruct p as [? ?]
          | |- context [if ?b then _ else _] => destruct b eqn:?
          end);
  cbn [fst snd ctx srv logged observed body status responses Queries
         serverFingerPrints].

(** * Properties *)

(** ** Bytes and the constant-time comparison *)

Section SubtleFacts.

Import subtle.

Lemma fits8_range (z : Z) : fits8 z -> 0 <= z < 256.
Proof.
  unfold fits8. rewrite Z.shiftr_div_pow2 by lia.
  change (2 ^ 8) with 256. intros Hq.
  apply Z.div_small_iff in Hq; lia.
Qed.

Lemma range_fits8 (z : Z) : 0 <= z < 256 -> fits8 z.
Proof.
  intros Hz. unfold fits8. rewrite Z.shiftr_div_pow2 by lia.
  apply Z.div_small. exact Hz.
Qed.

Lemma byte_val_range (b : Byte.byte) : 0 <= byte_val b < 256.
Proof.
  unfold byte_val. pose proof (Byte.to_N_bounded b) as Hb. lia.
Qed.

Lemma byte_val_inj (a b : Byte.byte) : byte_val a = byte_val b -> a = b.
Proof.
  unfold byte_val. intros Hab. apply N2Z.inj in Hab.
  pose proof (Byte.of_to_N a) as Ha. pose proof (Byte.of_to_N b) as Hb.
  rewrite Hab in Ha. congruence.
Qed.

Lemma fits8_lor (a b : Z) : fits8 a -> fits8 b -> fits8 (Z.lor a b).
Proof.
  unfold fits8. intros Ha Hb. now rewrite Z.shiftr_lor, Ha, Hb.
Qed.

Lemma fits8_lxor (a b : Z) : fits8 a -> fits8 b -> fits8 (Z.lxor a b).
Proof.
  unfold fits8. intros Ha Hb. now rewrite Z.shiftr_lxor, Ha, Hb.
Qed.

(** The accumulator stays a byte: [v |= x[i] ^ y[i]] never overflows. *)
Lemma xor_loop_fits8 (x y : bytes) (n i : nat) (v : Z) :
  fits8 v -> fits8 (xor_loop x y i n v).
Proof.
  revert i v. induction n as [|n IH]; intros i v Hv; simpl.
  - exact Hv.
  - apply IH. apply fits8_lor; [exact Hv|].
    apply fits8_lxor; apply range_fits8, byte_val_range.
Qed.

(** The accumulator ends at zero exactly when it started at zero and the
    slices agree on every index the loop visited. *)
Lemma xor_loop_zero (x y : bytes) (n i : nat) (v : Z) :
  xor_loop x y i n v = 0 <->
  v = 0 /\
  forall j, (i <= j < i + n)%nat -> nth j x Byte.x00 = nth j y Byte.x00.
Proof.
  revert i v. induction n as [|n IH]; intros i v; simpl.
  - split; [intros Hv; split; [exact Hv | intros j Hj; lia] | tauto].
  - rewrite IH, Z.lor_eq_0_iff, Z.lxor_eq_0_iff. split.
    + intros [[Hv Hi] Hrest]. split; [exact Hv|].
      intros j Hj. destruct (Nat.eq_dec j i) as [->|Hne].
      * now apply byte_val_inj.
      * apply Hrest. lia.
    + intros [Hv Hall]. repeat split.
      * exact Hv.
      * f_equal. apply Hall. lia.
      * intros j Hj. apply Hall. lia.
Qed.

Lemma ConstantTimeByteEq_zero (v : Z) :
  0 <= v < 256 ->
  ConstantTimeByteEq v 0 = if Z.eqb v 0 then 1 else 0.
Proof.
  intros Hv. unfold ConstantTimeByteEq, uint32.
  rewrite Z.lxor_0_r.
  rewrite (Z.mod_small v) by lia.
  destruct (Z.eqb_spec v 0) as [->|Hne].
  - reflexivity.
  - rewrite Z.mod_small by lia.
    rewrite Z.shiftr_div_pow2 by lia.
    apply Z.div_small. lia.
Qed.

(** [ConstantTimeCompare] returns 1 on equal slices and 0 otherwise. *)
Lemma ConstantTimeCompare_eq (x y : bytes) :
  ConstantTimeCompare x y = 1 <-> x = y.
Proof.
  unfold ConstantTimeCompare.
  destruct (Nat.eqb_spec (List.length x) (List.length y)) as [Hlen|Hlen]; simpl.
  - rewrite ConstantTimeByteEq_zero
      by (apply fits8_range, xor_loop_fits8, range_fits8; lia).
    destruct (Z.eqb_spec (xor_loop x y 0 (List.length x) 0) 0) as [Hz|Hz].
    + split; [intros _|reflexivity].
      apply xor_loop_zero in Hz. destruct Hz as [_ Hall].
      apply (nth_ext x y Byte.x00 Byte.x00 Hlen).
      intros j Hj. apply Hall. lia.
    + split; [discriminate|].
      intros ->. exfalso. apply Hz.
      apply xor_loop_zero. split; [reflexivity | reflexivity].
  - split; [discriminate|]. intros ->. now elim Hlen.
Qed.

Lemma ConstantTimeCompare_neq (x y : bytes) :
  ConstantTimeCompare x y = 0 <-> x <> y.
Proof.
  pose proof (ConstantTimeCompare_eq x y) as Heq.
  unfold ConstantTimeCompare in *.
  destruct (Nat.eqb (List.length x) (List.length y)); simpl in *.
  - rewrite ConstantTimeByteEq_zero in *
      by (apply fits8_range, xor_loop_fits8, range_fits8; lia).
    destruct (Z.eqb (xor_loop x y 0 (List.length x) 0) 0).
    + split; [discriminate|]. intros Hne. elim Hne. now apply Heq.
    + split; [|reflexivity]. intros _ Hxy. apply Heq in Hxy. discriminate.
  - split; [|reflexivity]. intros _ Hxy. apply Heq in Hxy. discriminate.
Qed.

(** The verdict test [ConstantTimeCompare(x, y) == 1] as a boolean. *)
Lemma ConstantTimeCompare_eqb (x y : bytes) :
  Z.eqb (ConstantTimeCompare x y) 1 = true <-> x = y.
Proof. rewrite Z.eqb_eq. apply ConstantTimeCompare_eq. Qed.

(** The recorded run computes what the function computes. *)
Lemma xor_loop_run_value (x y : bytes) (n i : nat) (v : Z) (t : leakage) :
  fst (xor_loop_run x y i n v t) = xor_loop x y i n v.
Proof.
  revert i v t. induction n as [|n IH]; intros i v t; simpl.
  - reflexivity.
  - apply IH.
Qed.

(** What the loop leaks is fixed by where it starts and how long it runs. *)
Lemma xor_loop_run_leakage (x y x' y' : bytes) (n i : nat) (v v' : Z)
    (t : leakage) :
  snd (xor_loop_run x y i n v t) = snd (xor_loop_run x' y' i n v' t).
Proof.
  revert i v v' t. induction n as [|n IH]; intros i v v' t; simpl.
  - reflexivity.
  - apply IH.
Qed.

Lemma ConstantTimeCompare_run_value (x y : bytes) :
  fst (ConstantTimeCompare_run x y) = ConstantTimeCompare x y.
Proof.
  unfold ConstantTimeCompare_run, ConstantTimeCompare.
  destruct (negb (Nat.eqb (List.length x) (List.length y))); [reflexivity|].
  rewrite <- (xor_loop_run_value x y (List.length x) 0 0 [Branch false]).
  destruct (xor_loop_run x y 0 (List.length x) 0 [Branch false]); reflexivity.
Qed.

Lemma ConstantTimeCompare_run_leakage (x y x' y' : bytes) :
  List.length x = List.length x' ->
  List.length y = List.length y' ->
  snd (ConstantTimeCompare_run x y) = snd (ConstantTimeCompare_run x' y').
Proof.
  intros Hx Hy. unfold ConstantTimeCompare_run. rewrite <- Hx, <- Hy.
  destruct (negb (Nat.eqb (List.length x) (List.length y))); [reflexivity|].
  pose proof (xor_loop_run_leakage x y x' y' (List.length x) 0 0 0
                [Branch false]) as Hl.
  destruct (xor_loop_run x y 0 (List.length x) 0 [Branch false]).
  destruct (xor_loop_run x' y' 0 (List.length x) 0 [Branch false]).
  exact Hl.
Qed.

(** How many events a run records: three per byte and two tests more when
    the lengths agree, the one length test when they do not. *)
Lemma xor_loop_run_steps (x y : bytes) (n i : nat) (v : Z) (t : leakage) :
  List.length (snd (xor_loop_run x y i n v t)) =
  (List.length t + 3 * n + 1)%nat.
Proof.
  revert i v t. induction n as [|n IH]; intros i v t; simpl.
  - rewrite length_app. simpl. lia.
  - rewrite IH, length_app. simpl. lia.
Qed.

Lemma ConstantTimeCompare_run_steps (x y : bytes) :
  List.length (snd (ConstantTimeCompare_run x y)) =
  if Nat.eqb (List.length x) (List.length y)
  then (3 * List.length x + 2)%nat else 1%nat.
Proof.
  unfold ConstantTimeCompare_run.
  destruct (Nat.eqb (List.length x) (List.length y)); simpl; [|reflexivity].
  pose proof (xor_loop_run_steps x y (List.length x) 0 0 [Branch false])
    as Hsteps.
  destruct (xor_loop_run x y 0 (List.length x) 0 [Branch false]).
  simpl in *. lia.
Qed.

End SubtleFacts.

(** ** The handlers *)

Lemma snoc_inj (A : Type) (l : list A) (a b : A) :
  l ++ [a] = l ++ [b] -> a = b.
Proof. intros Hab. apply app_inv_head in Hab. now injection Hab. Qed.

Section HandlerFacts.

Context `{Collaborators}.

(** What [OnPubKey] answers once the request is bound, the username
    decoded, the user found and the candidate key parsed. *)
Lemma OnPubKey_decided (w : World) (req : auth.PublicKeyAuthRequest.t)
    (owner target : string) (user : User.t) (key : PublicKey) :
  BindJSON_pubkey (body (ctx w)) = Ok req ->
  GetInfo (auth.PublicKeyAuthRequest.Username req) = Ok (owner, target) ->
  GetUser (Queries (srv w)) owner = Ok user ->
  ParseAuthorizedKey
    (bytes_of_string
       (auth.PublicKey.PublicKey (auth.PublicKeyAuthRequest.PublicKey req)))
    = Ok key ->
  answer OnPubKey w =
  responses (ctx w) ++
  [(200, JAuth (auth.ResponseBody.Build
                  (Z.eqb (subtle.ConstantTimeCompare (Marshal key)
                            (User.PublicKey user)) 1)))].
Proof.
  intros Hbind Hname Huser Hkey. run_handler. settle.
  rewrite ConstantTimeCompare_run_value.
  destruct (Z.eqb _ 1); reflexivity.
Qed.

(** C1. Once the request is bound, the username decoded, the owner's
    record fetched and the candidate key parsed, [OnPubKey] answers 200
    with [Success: true] exactly when the marshalled bytes of the parsed
    key equal the stored key's bytes, and 200 with [Success: false]
    exactly when the two byte strings differ in any way (length or any
    byte); no weaker match is accepted. *)
Theorem OnPubKey_success_iff_equal_bytes (w : World)
    (req : auth.PublicKeyAuthRequest.t) (owner target : string)
    (user : User.t) (key : PublicKey) :
  BindJSON_pubkey (body (ctx w)) = Ok req ->
  GetInfo (auth.PublicKeyAuthRequest.Username req) = Ok (owner, target) ->
  GetUser (Queries (srv w)) owner = Ok user ->
  ParseAuthorizedKey
    (bytes_of_string
       (auth.PublicKey.PublicKey (auth.PublicKeyAuthRequest.PublicKey req)))
    = Ok key ->
  (answer OnPubKey w =
     responses (ctx w) ++ [(200, JAuth (auth.ResponseBody.Build true))]
   <-> Marshal key = User.PublicKey user) /\
  (answer OnPubKey w =
     responses (ctx w) ++ [(200, JAuth (auth.ResponseBody.Build false))]
   <-> Marshal key <> User.PublicKey user).
Proof.
  intros Hbind Hname Huser Hkey.
  rewrite (OnPubKey_decided w _ _ _ _ _ Hbind Hname Huser Hkey).
  pose proof (ConstantTimeCompare_eqb (Marshal key) (User.PublicKey user))
    as Hcmp.
  destruct (Z.eqb _ 1).
  - split; split.
    + intros _. now apply Hcmp.
    + reflexivity.
    + intros Habs. apply snoc_inj in Habs. discriminate.
    + intros Hne. elim Hne. now apply Hcmp.
  - split; split.
    + intros Habs. apply snoc_inj in Habs. discriminate.
    + intros Heq. apply Hcmp in Heq. discriminate.
    + intros _ Heq. apply Hcmp in Heq. discriminate.
    + reflexivity.
Qed.

(** What a run of [OnPubKey] that reaches the comparison lets a timing
    observer see: the leakage of that one run of the comparison, on the
    very slices compared. *)
Lemma OnPubKey_observed (w : World) (req : auth.PublicKeyAuthRequest.t)
    (owner target : string) (user : User.t) (key : PublicKey) :
  BindJSON_pubkey (body (ctx w)) = Ok req ->
  GetInfo (auth.PublicKeyAuthRequest.Username req) = Ok (owner, target) ->
  GetUser (Queries (srv w)) owner = Ok user ->
  ParseAuthorizedKey
    (bytes_of_string
       (auth.PublicKey.PublicKey (auth.PublicKeyAuthRequest.PublicKey req)))
    = Ok key ->
  observed (snd (OnPubKey w)) =
  observed w ++
  snd (subtle.ConstantTimeCompare_run (Marshal key) (User.PublicKey user)).
Proof.
  intros Hbind Hname Huser Hkey. run_handler. settle.
  destruct (Z.eqb _ 1); reflexivity.
Qed.

(** C2. The comparison [OnPubKey] performs is constant-time: what a run
    of the handler lets a timing observer see (the branches taken and the
    indices read while the candidate key is compared with the stored key)
    is the leakage of [subtle.ConstantTimeCompare] on these two slices, and
    a second run of the handler, on any other candidate and stored key of
    the same two lengths, shows the observer exactly the same, wherever the
    first mismatching byte lies. *)
Theorem OnPubKey_compare_constant_time (w1 w2 : World)
    (req1 req2 : auth.PublicKeyAuthRequest.t)
    (owner1 target1 owner2 target2 : string)
    (user1 user2 : User.t) (key1 key2 : PublicKey) :
  BindJSON_pubkey (body (ctx w1)) = Ok req1 ->
  GetInfo (auth.PublicKeyAuthRequest.Username req1) = Ok (owner1, target1) ->
  GetUser (Queries (srv w1)) owner1 = Ok user1 ->
  ParseAuthorizedKey
    (bytes_of_string
       (auth.PublicKey.PublicKey (auth.PublicKeyAuthRequest.PublicKey req1)))
    = Ok key1 ->
  BindJSON_pubkey (body (ctx w2)) = Ok req2 ->
  GetInfo (auth.PublicKeyAuthRequest.Username req2) = Ok (owner2, target2) ->
  GetUser (Queries (srv w2)) owner2 = Ok user2 ->
  ParseAuthorizedKey
    (bytes_of_string
       (auth.PublicKey.PublicKey (auth.PublicKeyAuthRequest.PublicKey req2)))
    = Ok key2 ->
  List.length (Marshal key1) = List.length (Marshal key2) ->
  List.length (User.PublicKey user1) = List.length (User.PublicKey user2) ->
  observed (snd (OnPubKey w1)) =
    observed w1 ++
    snd (subtle.ConstantTimeCompare_run (Marshal key1) (User.PublicKey user1))
  /\
  observed (snd (OnPubKey w2)) =
    observed w2 ++
    snd (subtle.ConstantTimeCompare_run (Marshal key1) (User.PublicKey user1)).
Proof.
  intros Hb1 Hn1 Hu1 Hk1 Hb2 Hn2 Hu2 Hk2 Hcandidate Hstored. split.
  - exact (OnPubKey_observed w1 _ _ _ _ _ Hb1 Hn1 Hu1 Hk1).
  - rewrite (OnPubKey_observed w2 _ _ _ _ _ Hb2 Hn2 Hu2 Hk2). f_equal.
    symmetry. now apply ConstantTimeCompare_run_leakage.
Qed.

(** C4. On a bound request, each way in which [OnPubKey] can fail to
    decide is answered with status 500 and a payload that is not an
    authentication verdict: a username that does not decode and a
    candidate key that does not parse with the error itself, a missing
    user with "user not found", any other store error with "Internal
    error".  A verdict payload is answered only when the username
    decoded, the user was found and the key parsed. *)
Theorem OnPubKey_errors_are_not_verdicts (w : World)
    (req : auth.PublicKeyAuthRequest.t) :
  BindJSON_pubkey (body (ctx w)) = Ok req ->
  (forall e,
      GetInfo (auth.PublicKeyAuthRequest.Username req) = Err e ->
      answer OnPubKey w = responses (ctx w) ++ [(500, JError e)]) /\
  (forall owner target e,
      GetInfo (auth.PublicKeyAuthRequest.Username req) = Ok (owner, target) ->
      GetUser (Queries (srv w)) owner = Err e ->
      errors.Is e ErrNoRows = true ->
      answer OnPubKey w =
      responses (ctx w) ++ [(500, JString "user not found")]) /\
  (forall owner target e,
      GetInfo (auth.PublicKeyAuthRequest.Username req) = Ok (owner, target) ->
      GetUser (Queries (srv w)) owner = Err e ->
      errors.Is e ErrNoRows = false ->
      answer OnPubKey w =
      responses (ctx w) ++ [(500, JString "Internal error")]) /\
  (forall owner target user e,
      GetInfo (auth.PublicKeyAuthRequest.Username req) = Ok (owner, target) ->
      GetUser (Queries (srv w)) owner = Ok user ->
      ParseAuthorizedKey
        (bytes_of_string
           (auth.PublicKey.PublicKey
              (auth.PublicKeyAuthRequest.PublicKey req))) = Err e ->
      answer OnPubKey w = responses (ctx w) ++ [(500, JError e)]) /\
  (forall code verdict,
      answer OnPubKey w = responses (ctx w) ++ [(code, JAuth verdict)] ->
      exists owner target user key,
        GetInfo (auth.PublicKeyAuthRequest.Username req) = Ok (owner, target) /\
        GetUser (Queries (srv w)) owner = Ok user /\
        ParseAuthorizedKey
          (bytes_of_string
             (auth.PublicKey.PublicKey
                (auth.PublicKeyAuthRequest.PublicKey req))) = Ok key).
Proof.
  intros Hbind. repeat split.
  - intros e Hname. run_handler. now settle.
  - intros owner target e Hname Huser Hrows. run_handler. now settle.
  - intros owner target e Hname Huser Hrows. run_handler. now settle.
  - intros owner target user e Hname Huser Hkey. run_handler. now settle.
  - intros code verdict. run_handler. rewrite Hbind.
    destruct (GetInfo (auth.PublicKeyAuthRequest.Username req))
      as [[owner target]|e] eqn:Hname;
      cbn [fst snd ctx srv logged body responses].
    2: { intros Habs. apply snoc_inj in Habs. discriminate. }
    destruct (GetUser (Queries (srv w)) owner) as [user|e] eqn:Huser.
    2: { destruct (errors.Is e ErrNoRows);
         cbn [fst snd ctx srv logged body responses];
         intros Habs; apply snoc_inj in Habs; discriminate. }
    destruct (ParseAuthorizedKey _) as [key|e] eqn:Hkey.
    2: { cbn [fst snd ctx srv logged body responses].
         intros Habs. apply snoc_inj in Habs. discriminate. }
    intros _. now exists owner, target, user, key.
Qed.

(** C5. For a bound request whose username decodes to [(owner, target)],
    [OnConfig] answers 200 with the configuration whose backend is
    "sshproxy", whose server is [target] as decoded, whose port is 2222,
    whose username is "envd" and whose allowed host-key fingerprints are
    the server's [serverFingerPrints], unchanged. *)
Theorem OnConfig_route (w : World) (req : config.Request.t)
    (owner target : string) :
  BindJSON_config (body (ctx w)) = Ok req ->
  GetInfo (config.Request.Username req) = Ok (owner, target) ->
  answer OnConfig w =
  responses (ctx w) ++
  [(200, JConfig
           (config.ResponseBody.Build
              (config.AppConfig.Build "sshproxy"
                 (config.SSHProxyConfig.Build target 2222 "envd"
                    (serverFingerPrints (srv w))))))].
Proof.
  intros Hbind Hname. run_handler. now settle.
Qed.

(** C6. When the decoder rejects a username with an error, [OnConfig] and
    [OnPubKey] on a request carrying that username both answer 500 with
    that very error, and so neither a configuration nor a verdict. *)
Theorem malformed_username_rejected (w : World) (username : string)
    (e : error) :
  GetInfo username = Err e ->
  (forall req,
      BindJSON_config (body (ctx w)) = Ok req ->
      config.Request.Username req = username ->
      answer OnConfig w = responses (ctx w) ++ [(500, JError e)]) /\
  (forall req,
      BindJSON_pubkey (body (ctx w)) = Ok req ->
      auth.PublicKeyAuthRequest.Username req = username ->
      answer OnPubKey w = responses (ctx w) ++ [(500, JError e)]).
Proof.
  intros Hname. split; intros req Hbind Huser; subst username;
    run_handler; now settle.
Qed.

(** [OnConfig] writes to the context only: the server, the log and what
    has been observed are as before, whatever the request. *)
Lemma OnConfig_frame (w : World) :
  srv (snd (OnConfig w)) = srv w /\
  logged (snd (OnConfig w)) = logged w /\
  observed (snd (OnConfig w)) = observed w.
Proof.
  run_handler.
  destruct (BindJSON_config (body (ctx w))) as [req|e];
    [destruct (GetInfo (config.Request.Username req)) as [[owner name]|e]|];
    now cbn [fst snd ctx srv logged body responses].
Qed.

(** The answer of [OnConfig] to a fresh request is a function of the
    request body and of the server's fingerprints. *)
Lemma OnConfig_answer_ext (w1 w2 : World) (b : string) :
  serverFingerPrints (srv w1) = serverFingerPrints (srv w2) ->
  answer OnConfig (next_request w1 b) = answer OnConfig (next_request w2 b).
Proof.
  intros Hfp. run_handler.
  destruct (BindJSON_config b) as [req|e];
    [destruct (GetInfo (config.Request.Username req)) as [[owner name]|e]|];
    cbn [fst snd ctx srv logged body responses]; now rewrite ?Hfp.
Qed.

(** C7. Calling [OnConfig] a second time, in the world the first call
    left, on the same request body gives the same answer; and so do two
    calls on any two bodies that bind to requests with the same
    username. *)
Theorem OnConfig_idempotent (w : World) (b1 b2 : string)
    (req1 req2 : config.Request.t) :
  answer OnConfig (next_request (snd (OnConfig (next_request w b1))) b1) =
  answer OnConfig (next_request w b1)
  /\
  (BindJSON_config b1 = Ok req1 ->
   BindJSON_config b2 = Ok req2 ->
   config.Request.Username req1 = config.Request.Username req2 ->
   answer OnConfig (next_request (snd (OnConfig (next_request w b1))) b2) =
   answer OnConfig (next_request w b1)).
Proof.
  destruct (OnConfig_frame (next_request w b1)) as (Hsrv & _ & _).
  split.
  - apply OnConfig_answer_ext. now rewrite Hsrv.
  - intros Hb1 Hb2 Huser.
    rewrite (OnConfig_answer_ext (snd (OnConfig (next_request w b1))) w b2)
      by now rewrite Hsrv.
    run_handler. rewrite Hb1, Hb2, Huser.
    destruct (GetInfo (config.Request.Username req2)) as [[owner name]|e];
      reflexivity.
Qed.

(** C8. [OnConfig] leaves the server, and with it the process-wide
    fingerprint set, as it found it, on every call; and the fingerprints
    in a configuration it answers are the server's. *)
Theorem OnConfig_keeps_fingerprints (w : World)
    (res : config.ResponseBody.t) :
  srv (snd (OnConfig w)) = srv w /\
  serverFingerPrints (srv (snd (OnConfig w))) = serverFingerPrints (srv w) /\
  (answer OnConfig w = responses (ctx w) ++ [(200, JConfig res)] ->
   config.SSHProxyConfig.AllowedHostKeyFingerprints
     (config.AppConfig.SSHProxy (config.ResponseBody.Config res)) =
   serverFingerPrints (srv w)).
Proof.
  destruct (OnConfig_frame w) as (Hsrv & _ & _).
  split; [exact Hsrv|]. split; [now rewrite Hsrv|].
  run_handler.
  destruct (BindJSON_config (body (ctx w))) as [req|e];
    [destruct (GetInfo (config.Request.Username req)) as [[owner name]|e]|];
    cbn [fst snd ctx srv logged body responses];
    intros Hres; apply snoc_inj in Hres; try discriminate.
  injection Hres as <-. reflexivity.
Qed.

(** C9. The answer of [OnConfig] does not depend on the owner: two
    requests whose usernames decode to the same target, under whatever
    owners, are answered alike by servers with the same fingerprints. *)
Theorem OnConfig_ignores_owner (w1 w2 : World)
    (req1 req2 : config.Request.t) (owner1 owner2 target : string) :
  serverFingerPrints (srv w1) = serverFingerPrints (srv w2) ->
  responses (ctx w1) = responses (ctx w2) ->
  BindJSON_config (body (ctx w1)) = Ok req1 ->
  BindJSON_config (body (ctx w2)) = Ok req2 ->
  GetInfo (config.Request.Username req1) = Ok (owner1, target) ->
  GetInfo (config.Request.Username req2) = Ok (owner2, target) ->
  answer OnConfig w1 = answer OnConfig w2.
Proof.
  intros Hfp Hresp Hb1 Hb2 Hn1 Hn2.
  run_handler. rewrite Hb1, Hb2, Hn1, Hn2.
  cbn [fst snd ctx srv logged body responses].
  now rewrite Hfp, Hresp.
Qed.

(** C10. The answer of [OnPubKey] does not depend on the target: two
    requests that offer the same key material and whose usernames decode
    to the same owner, under whatever targets, are answered alike over
    the same user store. *)
Theorem OnPubKey_ignores_target (w1 w2 : World)
    (req1 req2 : auth.PublicKeyAuthRequest.t)
    (owner target1 target2 : string) :
  Queries (srv w1) = Queries (srv w2) ->
  responses (ctx w1) = responses (ctx w2) ->
  BindJSON_pubkey (body (ctx w1)) = Ok req1 ->
  BindJSON_pubkey (body (ctx w2)) = Ok req2 ->
  auth.PublicKeyAuthRequest.PublicKey req1 =
  auth.PublicKeyAuthRequest.PublicKey req2 ->
  GetInfo (auth.PublicKeyAuthRequest.Username req1) = Ok (owner, target1) ->
  GetInfo (auth.PublicKeyAuthRequest.Username req2) = Ok (owner, target2) ->
  answer OnPubKey w1 = answer OnPubKey w2.
Proof.
  intros Hq Hresp Hb1 Hb2 Hkey Hn1 Hn2. run_handler.
  rewrite Hb1, Hb2, Hn1, Hn2.
  cbn [fst snd ctx srv logged observed body responses].
  rewrite Hq, Hkey.
  destruct (GetUser (Queries (srv w2)) owner) as [user|e].
  - destruct (ParseAuthorizedKey _) as [key|e];
      [destruct (Z.eqb _ 1)|];
      cbn [fst snd ctx srv logged observed body responses];
      now rewrite Hresp.
  - destruct (errors.Is e ErrNoRows);
      cbn [fst snd ctx srv logged observed body responses];
      now rewrite Hresp.
Qed.

End HandlerFacts.

(** ** The identity encoding *)

Section SshnameFacts.

Import strings sshname.

Lemma Count_count_occ (s : string) (sep : ascii) :
  Count s sep = count_occ ascii_dec (list_ascii_of_string s) sep.
Proof.
  induction s as [|ch rest IH]; simpl.
  - reflexivity.
  - destruct (Ascii.eqb_spec ch sep) as [->|Hne].
    + destruct (ascii_dec sep sep) as [_|Hne]; [now rewrite IH | now elim Hne].
    + destruct (ascii_dec ch sep) as [Heq|_]; [now elim Hne | exact IH].
Qed.

Lemma Count_absent (s : string) (sep : ascii) :
  ~ In sep (list_ascii_of_string s) -> Count s sep = O.
Proof.
  rewrite Count_count_occ. apply count_occ_not_In.
Qed.

Lemma Count_append (a b : string) (sep : ascii) :
  Count (a ++ b) sep = (Count a sep + Count b sep)%nat.
Proof.
  induction a as [|ch rest IH]; simpl.
  - reflexivity.
  - destruct (Ascii.eqb ch sep); rewrite IH; reflexivity.
Qed.

Lemma before_join (a b : string) (sep : ascii) :
  ~ In sep (list_ascii_of_string a) -> before sep (a ++ String sep b) = a.
Proof.
  induction a as [|ch rest IH]; simpl; intros Hfree.
  - now rewrite Ascii.eqb_refl.
  - destruct (Ascii.eqb_spec ch sep) as [->|Hne].
    + elim Hfree. now left.
    + f_equal. apply IH. intros Hin. apply Hfree. now right.
Qed.

Lemma after_join (a b : string) (sep : ascii) :
  ~ In sep (list_ascii_of_string a) -> after sep (a ++ String sep b) = b.
Proof.
  induction a as [|ch rest IH]; simpl; intros Hfree.
  - now rewrite Ascii.eqb_refl.
  - destruct (Ascii.eqb_spec ch sep) as [->|Hne].
    + elim Hfree. now left.
    + apply IH. intros Hin. apply Hfree. now right.
Qed.

Lemma before_free (s : string) (sep : ascii) :
  ~ In sep (list_ascii_of_string (before sep s)).
Proof.
  induction s as [|ch rest IH]; simpl.
  - tauto.
  - destruct (Ascii.eqb_spec ch sep) as [->|Hne]; simpl.
    + tauto.
    + intros [Heq|Hin]; [now elim Hne | now apply IH].
Qed.

(** A username with a delimiter is its two segments around the first
    one, and the second segment holds the remaining delimiters. *)
Lemma cut_join (s : string) (sep : ascii) (n : nat) :
  Count s sep = S n ->
  s = (before sep s ++ String sep (after sep s))%string /\
  Count (after sep s) sep = n.
Proof.
  induction s as [|ch rest IH]; simpl.
  - discriminate.
  - destruct (Ascii.eqb_spec ch sep) as [->|Hne]; simpl.
    + intros Hn. injection Hn as Hn. now split.
    + intros Hn. destruct (IH Hn) as [Hjoin Hrest].
      split; [now rewrite <- Hjoin | exact Hrest].
Qed.

Lemma Count_zero_free (s : string) (sep : ascii) :
  Count s sep = O -> ~ In sep (list_ascii_of_string s).
Proof.
  rewrite Count_count_occ. apply count_occ_not_In.
Qed.

Lemma eqb_empty_false (s : string) : s <> "" -> String.eqb s "" = false.
Proof. intros Hs. now apply String.eqb_neq. Qed.

(** What [GetInfo] accepts, and how. *)
Lemma GetInfo_Ok_inv (username o t : string) :
  GetInfo username = Ok (o, t) ->
  username = (o ++ "#" ++ t)%string /\ o <> "" /\ t <> "" /\
  ~ In delimiter (list_ascii_of_string o) /\
  ~ In delimiter (list_ascii_of_string t).
Proof.
  unfold GetInfo.
  destruct (Nat.eqb_spec (Count username delimiter) 1) as [Hone|Hne];
    simpl; [|discriminate].
  destruct (String.eqb_spec (before delimiter username) "") as [He|Ho];
    simpl; [discriminate|].
  destruct (String.eqb_spec (after delimiter username) "") as [He|Ht];
    simpl; [discriminate|].
  intros Hok. injection Hok as <- <-.
  destruct (cut_join username delimiter _ Hone) as [Hjoin Hrest].
  repeat split.
  - exact Hjoin.
  - exact Ho.
  - exact Ht.
  - apply before_free.
  - now apply Count_zero_free.
Qed.

Lemma GetInfo_Err_inv (username : string) (e : error) :
  GetInfo username = Err e -> e = MalformedIdentity.
Proof.
  unfold GetInfo.
  destruct (negb _); [now intros [= <-]|].
  destruct (_ || _); [now intros [= <-] | discriminate].
Qed.

(** C3. [GetInfo] on [owner#target], with both segments non-empty and free
    of the delimiter, returns exactly [(owner, target)]; on a username
    whose number of delimiters is not one (none, or several), on one with
    an empty owner segment and on one with an empty target segment it
    fails with [MalformedIdentity].  It has no other outcome: a success is
    such a pair of segments of the username, a failure is
    [MalformedIdentity]. *)
Theorem GetInfo_grammar (owner target username : string) :
  (owner <> "" -> target <> "" ->
   ~ In "#"%char (list_ascii_of_string owner) ->
   ~ In "#"%char (list_ascii_of_string target) ->
   GetInfo (owner ++ "#" ++ target) = Ok (owner, target)) /\
  (count_occ ascii_dec (list_ascii_of_string username) "#"%char <> 1%nat ->
   GetInfo username = Err MalformedIdentity) /\
  GetInfo ("#" ++ target) = Err MalformedIdentity /\
  GetInfo (owner ++ "#") = Err MalformedIdentity /\
  (forall o t,
      GetInfo username = Ok (o, t) ->
      username = (o ++ "#" ++ t)%string /\ o <> "" /\ t <> "" /\
      ~ In "#"%char (list_ascii_of_string o) /\
      ~ In "#"%char (list_ascii_of_string t)) /\
  (forall e, GetInfo username = Err e -> e = MalformedIdentity).
Proof.
  repeat apply conj.
  - intros Ho Ht Hfo Hft. unfold GetInfo.
    rewrite Count_append. simpl Count. unfold delimiter.
    rewrite (Count_absent owner _ Hfo), (Count_absent target _ Hft). simpl.
    change ("#" ++ target)%string with (String "#" target).
    rewrite (before_join owner target _ Hfo), (after_join owner target _ Hfo).
    now rewrite (eqb_empty_false _ Ho), (eqb_empty_false _ Ht).
  - rewrite <- Count_count_occ. intros Hne. unfold GetInfo.
    fold delimiter in Hne.
    destruct (Nat.eqb_spec (Count username delimiter) 1) as [Hone|_];
      [now elim Hne | reflexivity].
  - unfold GetInfo. simpl.
    destruct (negb _); reflexivity.
  - unfold GetInfo. rewrite Count_append. simpl Count.
    destruct (Nat.eqb_spec (Count owner delimiter + 1) 1) as [Hone|_];
      simpl; [|reflexivity].
    assert (Hfree : ~ In delimiter (list_ascii_of_string owner))
      by (apply Count_zero_free; lia).
    change "#"%string with (String delimiter "").
    rewrite (after_join owner "" _ Hfree). simpl.
    now rewrite Bool.orb_true_r.
  - intros o t. apply GetInfo_Ok_inv.
  - intros e. apply GetInfo_Err_inv.
Qed.

End SshnameFacts.

(** ** The scenarios, run on the small deployment *)

Section Scenarios.

Import Demo.

(** Alice offers her stored key [K] and is accepted; she offers a key that
    differs from it in the last byte and is refused. *)
Lemma OnPubKey_success_iff_equal_bytes_witness :
  answer OnPubKey (pubkey_call "alice#gpu-box-1" "AAAAC3Nz") =
    [(200, verdict true)] /\
  answer OnPubKey (pubkey_call "alice#gpu-box-1" "AAAAC3Ny") =
    [(200, verdict false)].
Proof.
  split.
  - destruct (@OnPubKey_success_iff_equal_bytes collaborators
                (pubkey_call "alice#gpu-box-1" "AAAAC3Nz")
                (pubkey_request "alice#gpu-box-1" "AAAAC3Nz")
                "alice" "gpu-box-1" alice (bytes_of_string "AAAAC3Nz")
                eq_refl eq_refl eq_refl eq_refl) as [[_ Hyes] _].
    apply Hyes. reflexivity.
  - destruct (@OnPubKey_success_iff_equal_bytes collaborators
                (pubkey_call "alice#gpu-box-1" "AAAAC3Ny")
                (pubkey_request "alice#gpu-box-1" "AAAAC3Ny")
                "alice" "gpu-box-1" alice (bytes_of_string "AAAAC3Ny")
                eq_refl eq_refl eq_refl eq_refl) as [_ [_ Hno]].
    apply Hno. cbv. discriminate.
Defined.

(** Alice offering a key that differs from [K] in the first byte, and
    offering one that differs in the last, show a timing observer the
    same. *)
Lemma OnPubKey_compare_constant_time_witness :
  observed (snd (OnPubKey (pubkey_call "alice#gpu-box-1" "BAAAC3Nz"))) =
  observed (snd (OnPubKey (pubkey_call "alice#gpu-box-1" "AAAAC3Ny"))).
Proof.
  destruct (@OnPubKey_compare_constant_time collaborators
              (pubkey_call "alice#gpu-box-1" "BAAAC3Nz")
              (pubkey_call "alice#gpu-box-1" "AAAAC3Ny")
              (pubkey_request "alice#gpu-box-1" "BAAAC3Nz")
              (pubkey_request "alice#gpu-box-1" "AAAAC3Ny")
              "alice" "gpu-box-1" "alice" "gpu-box-1" alice alice
              (bytes_of_string "BAAAC3Nz") (bytes_of_string "AAAAC3Ny")
              eq_refl eq_refl eq_refl eq_refl eq_refl eq_refl eq_refl eq_refl
              eq_refl eq_refl) as [Hfirst Hlast].
  rewrite Hfirst, Hlast. reflexivity.
Defined.

(** [alice#gpu-box-1] decodes; a username without a delimiter, with two,
    or with an empty segment does not. *)
Lemma GetInfo_grammar_witness :
  sshname.GetInfo "alice#gpu-box-1" = Ok ("alice", "gpu-box-1") /\
  sshname.GetInfo "malformed-no-delimiter" = Err sshname.MalformedIdentity /\
  sshname.GetInfo "alice#gpu#box" = Err sshname.MalformedIdentity /\
  sshname.GetInfo "#gpu-box-1" = Err sshname.MalformedIdentity /\
  sshname.GetInfo "alice#" = Err sshname.MalformedIdentity.
Proof.
  repeat apply conj.
  - destruct (GetInfo_grammar "alice" "gpu-box-1" "") as (Hvalid & _).
    apply Hvalid.
    + discriminate.
    + discriminate.
    + cbv. intuition discriminate.
    + cbv. intuition discriminate.
  - destruct (GetInfo_grammar "" "" "malformed-no-delimiter")
      as (_ & Hcount & _).
    apply Hcount. cbv. discriminate.
  - destruct (GetInfo_grammar "" "" "alice#gpu#box") as (_ & Hcount & _).
    apply Hcount. cbv. discriminate.
  - destruct (GetInfo_grammar "" "gpu-box-1" "") as (_ & _ & Howner & _).
    exact Howner.
  - destruct (GetInfo_grammar "alice" "" "") as (_ & _ & _ & Htarget & _).
    exact Htarget.
Defined.

(** Scenario A and its kin: an owner without a record, a store that is
    down, a username that does not decode and a key that does not parse
    are each answered 500, none with a verdict. *)
Lemma OnPubKey_errors_are_not_verdicts_witness :
  answer OnPubKey (pubkey_call "bob#gpu-box-1" K) =
    [(500, JString "user not found")] /\
  answer OnPubKey (pubkey_call "mallory#gpu-box-1" K) =
    [(500, JString "Internal error")] /\
  answer OnPubKey (pubkey_call "malformed-no-delimiter" K) =
    [(500, JError sshname.MalformedIdentity)] /\
  answer OnPubKey (pubkey_call "alice#gpu-box-1" "") =
    [(500, JError (ErrNew "ssh: no key found"))].
Proof.
  repeat apply conj.
  - destruct (@OnPubKey_errors_are_not_verdicts collaborators
                (pubkey_call "bob#gpu-box-1" K)
                (pubkey_request "bob#gpu-box-1" K) eq_refl)
      as (_ & Hmissing & _).
    exact (Hmissing "bob" "gpu-box-1" ErrNoRows eq_refl eq_refl eq_refl).
  - destruct (@OnPubKey_errors_are_not_verdicts collaborators
                (pubkey_call "mallory#gpu-box-1" K)
                (pubkey_request "mallory#gpu-box-1" K) eq_refl)
      as (_ & _ & Hstore & _).
    exact (Hstore "mallory" "gpu-box-1"
             (ErrWrap "query" (ErrNew "connection refused"))
             eq_refl eq_refl eq_refl).
  - destruct (@OnPubKey_errors_are_not_verdicts collaborators
                (pubkey_call "malformed-no-delimiter" K)
                (pubkey_request "malformed-no-delimiter" K) eq_refl)
      as (Hname & _).
    exact (Hname sshname.MalformedIdentity eq_refl).
  - destruct (@OnPubKey_errors_are_not_verdicts collaborators
                (pubkey_call "alice#gpu-box-1" "")
                (pubkey_request "alice#gpu-box-1" "") eq_refl)
      as (_ & _ & _ & Hparse & _).
    exact (Hparse "alice" "gpu-box-1" alice (ErrNew "ssh: no key found")
             eq_refl eq_refl eq_refl).
Defined.

(** Scenario B: [alice#gpu-box-1] is routed to [gpu-box-1], port 2222, as
    [envd], with the server's fingerprints. *)
Lemma OnConfig_route_witness :
  answer OnConfig (config_call "alice#gpu-box-1") =
    [(200, route_to "gpu-box-1")].
Proof.
  exact (@OnConfig_route collaborators (config_call "alice#gpu-box-1")
           (config_request "alice#gpu-box-1") "alice" "gpu-box-1"
           eq_refl eq_refl).
Defined.

(** Scenario D: [malformed-no-delimiter] is rejected by both handlers with
    the decoder's error. *)
Lemma malformed_username_rejected_witness :
  answer OnConfig (config_call "malformed-no-delimiter") =
    [(500, JError sshname.MalformedIdentity)] /\
  answer OnPubKey (pubkey_call "malformed-no-delimiter" K) =
    [(500, JError sshname.MalformedIdentity)].
Proof.
  split.
  - destruct (@malformed_username_rejected collaborators
                (config_call "malformed-no-delimiter")
                "malformed-no-delimiter" sshname.MalformedIdentity eq_refl)
      as [Hconfig _].
    exact (Hconfig (config_request "malformed-no-delimiter") eq_refl eq_refl).
  - destruct (@malformed_username_rejected collaborators
                (pubkey_call "malformed-no-delimiter" K)
                "malformed-no-delimiter" sshname.MalformedIdentity eq_refl)
      as [_ Hpubkey].
    exact (Hpubkey (pubkey_request "malformed-no-delimiter" K)
             eq_refl eq_refl).
Defined.

(** A second [/config] call for [alice#gpu-box-1] is answered as the
    first. *)
Lemma OnConfig_idempotent_witness :
  answer OnConfig
    (next_request (snd (OnConfig (config_call "alice#gpu-box-1")))
       "alice#gpu-box-1") =
  [(200, route_to "gpu-box-1")].
Proof.
  destruct (@OnConfig_idempotent collaborators
              (config_call "alice#gpu-box-1")
              "alice#gpu-box-1" "alice#gpu-box-1"
              (config_request "alice#gpu-box-1")
              (config_request "alice#gpu-box-1")) as [_ Hsame].
  exact (Hsame eq_refl eq_refl eq_refl).
Defined.

(** The fingerprints answered for [alice#gpu-box-1] are the server's. *)
Lemma OnConfig_keeps_fingerprints_witness :
  serverFingerPrints (srv (snd (OnConfig (config_call "alice#gpu-box-1")))) =
    ["SHA256:aaaa"; "SHA256:bbbb"] /\
  config.SSHProxyConfig.AllowedHostKeyFingerprints
    (config.SSHProxyConfig.Build "gpu-box-1" 2222 "envd"
       ["SHA256:aaaa"; "SHA256:bbbb"]) =
    serverFingerPrints server.
Proof.
  destruct (@OnConfig_keeps_fingerprints collaborators
              (config_call "alice#gpu-box-1")
              (config.ResponseBody.Build
                 (config.AppConfig.Build "sshproxy"
                    (config.SSHProxyConfig.Build "gpu-box-1" 2222 "envd"
                       ["SHA256:aaaa"; "SHA256:bbbb"]))))
    as (_ & Hkept & Hanswered).
  split; [exact Hkept | exact (Hanswered eq_refl)].
Defined.

(** [alice] and [bob] are routed alike to [gpu-box-1]. *)
Lemma OnConfig_ignores_owner_witness :
  answer OnConfig (config_call "alice#gpu-box-1") =
  answer OnConfig (config_call "bob#gpu-box-1").
Proof.
  exact (@OnConfig_ignores_owner collaborators
           (config_call "alice#gpu-box-1") (config_call "bob#gpu-box-1")
           (config_request "alice#gpu-box-1") (config_request "bob#gpu-box-1")
           "alice" "bob" "gpu-box-1"
           eq_refl eq_refl eq_refl eq_refl eq_refl eq_refl).
Defined.

(** [alice] gets the same verdict on her key whichever box she names. *)
Lemma OnPubKey_ignores_target_witness :
  answer OnPubKey (pubkey_call "alice#gpu-box-1" K) =
  answer OnPubKey (pubkey_call "alice#gpu-box-2" K).
Proof.
  exact (@OnPubKey_ignores_target collaborators
           (pubkey_call "alice#gpu-box-1" K) (pubkey_call "alice#gpu-box-2" K)
           (pubkey_request "alice#gpu-box-1" K)
           (pubkey_request "alice#gpu-box-2" K)
           "alice" "gpu-box-1" "gpu-box-2"
           eq_refl eq_refl eq_refl eq_refl eq_refl eq_refl eq_refl).
Defined.

End Scenarios.

(** ** More on the comparison *)

Section CompareFacts.

Import subtle.

Lemma ConstantTimeByteEq_spec (x y : Z) :
  0 <= x < 256 -> 0 <= y < 256 ->
  ConstantTimeByteEq x y = if Z.eqb x y then 1 else 0.
Proof.
  intros Hx Hy.
  assert (Hxor : 0 <= Z.lxor x y < 256)
    by (apply fits8_range, fits8_lxor; now apply range_fits8).
  pose proof (ConstantTimeByteEq_zero (Z.lxor x y) Hxor) as Hz.
  unfold ConstantTimeByteEq in *. rewrite Z.lxor_0_r in Hz. rewrite Hz.
  destruct (Z.eqb_spec (Z.lxor x y) 0) as [H0|H0];
    destruct (Z.eqb_spec x y) as [Hxy|Hxy]; try reflexivity.
  - exfalso. apply Hxy. now apply Z.lxor_eq_0_iff.
  - exfalso. apply H0. now apply Z.lxor_eq_0_iff.
Qed.

Lemma ConstantTimeCompare_bit (x y : bytes) :
  ConstantTimeCompare x y = 1 \/ ConstantTimeCompare x y = 0.
Proof.
  unfold ConstantTimeCompare.
  destruct (negb (Nat.eqb (List.length x) (List.length y))); [now right|].
  rewrite ConstantTimeByteEq_zero
    by (apply fits8_range, xor_loop_fits8, range_fits8; lia).
  destruct (Z.eqb _ 0); [now left | now right].
Qed.

(** X1. [ConstantTimeByteEq] on two bytes returns 1 when they are the same
    byte and 0 when they are not: the subtraction that wraps below zero
    sets bit 31 exactly for equal bytes. *)
Theorem ConstantTimeByteEq_bytes (a b : Byte.byte) :
  (ConstantTimeByteEq (byte_val a) (byte_val b) = 1 <-> a = b) /\
  (ConstantTimeByteEq (byte_val a) (byte_val b) = 0 <-> a <> b).
Proof.
  rewrite (ConstantTimeByteEq_spec _ _ (byte_val_range a) (byte_val_range b)).
  destruct (Z.eqb_spec (byte_val a) (byte_val b)) as [Heq|Hne].
  - apply byte_val_inj in Heq. subst b. split; split; try reflexivity.
    + discriminate.
    + intros Hne. now elim Hne.
  - assert (Hab : a <> b) by (intros ->; now apply Hne).
    split; split; try discriminate; try reflexivity.
    + intros Heq. contradiction.
    + intros _. exact Hab.
Qed.

(** X2. [ConstantTimeCompare] has two outcomes only: 1 with the slices
    equal, 0 with the slices different; so testing the result against 1, as
    [OnPubKey] does, and testing it against 0 decide alike. *)
Theorem ConstantTimeCompare_decides (x y : bytes) :
  (ConstantTimeCompare x y = 1 /\ x = y) \/
  (ConstantTimeCompare x y = 0 /\ x <> y).
Proof.
  destruct (ConstantTimeCompare_bit x y) as [H1|H0].
  - left. split; [exact H1 | now apply ConstantTimeCompare_eq].
  - right. split; [exact H0 | now apply ConstantTimeCompare_neq].
Qed.

(** X3. The comparison is symmetric: which of the two keys is passed first
    does not change the result. *)
Theorem ConstantTimeCompare_sym (x y : bytes) :
  ConstantTimeCompare x y = ConstantTimeCompare y x.
Proof.
  destruct (ConstantTimeCompare_bit x y) as [Hxy|Hxy];
    destruct (ConstantTimeCompare_bit y x) as [Hyx|Hyx];
    rewrite Hxy, Hyx; try reflexivity; exfalso.
  - apply ConstantTimeCompare_eq in Hxy. apply ConstantTimeCompare_neq in Hyx.
    now apply Hyx.
  - apply ConstantTimeCompare_neq in Hxy. apply ConstantTimeCompare_eq in Hyx.
    now apply Hxy.
Qed.

(** X4. What a run of the comparison leaks is the lengths and no less: two
    runs with the same leakage agree on whether the two lengths were equal,
    and when they were, on the length itself. *)
Theorem ConstantTimeCompare_run_reveals_lengths (x y x' y' : bytes) :
  snd (ConstantTimeCompare_run x y) = snd (ConstantTimeCompare_run x' y') ->
  Nat.eqb (List.length x) (List.length y) =
  Nat.eqb (List.length x') (List.length y') /\
  (List.length x = List.length y ->
   List.length x' = List.length x /\ List.length y' = List.length y).
Proof.
  intros Hleak. apply (f_equal (@List.length event)) in Hleak.
  rewrite !ConstantTimeCompare_run_steps in Hleak.
  destruct (Nat.eqb_spec (List.length x) (List.length y)) as [Hxy|Hxy];
    destruct (Nat.eqb_spec (List.length x') (List.length y')) as [Hxy'|Hxy'];
    try (exfalso; lia);
    (split; [reflexivity|]); intros Hsame; [lia | contradiction].
Qed.

End CompareFacts.

(** ** More on the answers *)

Section AnswerFacts.

Context `{Collaborators}.

(** X5. Every run of [OnConfig] calls [c.JSON] exactly once: either with
    status 200 and a configuration, or with status 500 and an error. *)
Theorem OnConfig_answers_once (w : World) :
  exists code p,
    answer OnConfig w = responses (ctx w) ++ [(code, p)] /\
    ((code = 200 /\ exists res, p = JConfig res) \/
     (code = 500 /\ exists e, p = JError e)).
Proof.
  run_handler. by_paths;
    eexists; eexists; (split; [reflexivity|]);
    first [left; split; [reflexivity | eexists; reflexivity]
          | right; split; [reflexivity | eexists; reflexivity]].
Qed.

(** X6. Every run of [OnPubKey] calls [c.JSON] exactly once: either with
    status 200 and a verdict, or with status 500 and an error or one of the
    two fixed messages; never a verdict under 500 nor an error under 200. *)
Theorem OnPubKey_answers_once (w : World) :
  exists code p,
    answer OnPubKey w = responses (ctx w) ++ [(code, p)] /\
    ((code = 200 /\ exists verdict, p = JAuth verdict) \/
     (code = 500 /\
      ((exists e, p = JError e) \/
       p = JString "user not found" \/ p = JString "Internal error"))).
Proof.
  run_handler. by_paths;
    eexists; eexists; (split; [reflexivity|]);
    first [left; split; [reflexivity | eexists; reflexivity]
          | right; split; [reflexivity|];
            first [left; eexists; reflexivity
                  | right; left; reflexivity
                  | right; right; reflexivity]].
Qed.

(** X7. A request body that does not bind is answered with status 400:
    [c.BindJSON] writes it in the header before it returns the error, and
    the call [c.JSON(500, err)] that both handlers then make adds the
    binding error as the body but comes too late for the status.
    [OnPubKey] logs the error as "failed to bind the json", [OnConfig]
    logs nothing. *)
Theorem unbound_request_rejected (w : World) (e : error) :
  status (ctx w) = None ->
  (BindJSON_config (body (ctx w)) = Err e ->
   status (ctx (snd (OnConfig w))) = Some 400 /\
   answer OnConfig w = responses (ctx w) ++ [(500, JError e)] /\
   logged (snd (OnConfig w)) = logged w) /\
  (BindJSON_pubkey (body (ctx w)) = Err e ->
   status (ctx (snd (OnPubKey w))) = Some 400 /\
   answer OnPubKey w = responses (ctx w) ++ [(500, JError e)] /\
   logged (snd (OnPubKey w)) =
   logged w ++ [LogError e "failed to bind the json"]).
Proof.
  intros Hfresh. split; intros Hbind; run_handler; rewrite Hbind;
    cbn [fst snd ctx srv logged observed body status responses];
    rewrite Hfresh; now repeat split.
Qed.

(** X8. When the user lookup or the key parse fails, [OnPubKey] logs one
    entry that carries the very error returned: "user not found" for
    [pgx.ErrNoRows], "db query failed: " followed by the error's text for
    any other store error, "failed to parse key" for a parse error. *)
Theorem OnPubKey_logged_failures (w : World)
    (req : auth.PublicKeyAuthRequest.t) (owner target : string) :
  BindJSON_pubkey (body (ctx w)) = Ok req ->
  GetInfo (auth.PublicKeyAuthRequest.Username req) = Ok (owner, target) ->
  (forall e,
      GetUser (Queries (srv w)) owner = Err e ->
      logged (snd (OnPubKey w)) =
      logged w ++
      [LogError e (if errors.Is e ErrNoRows then "user not found"
                   else "db query failed: " ++ errors.Error e)]) /\
  (forall user e,
      GetUser (Queries (srv w)) owner = Ok user ->
      ParseAuthorizedKey
        (bytes_of_string
           (auth.PublicKey.PublicKey
              (auth.PublicKeyAuthRequest.PublicKey req))) = Err e ->
      logged (snd (OnPubKey w)) = logged w ++ [LogError e "failed to parse key"]).
Proof.
  intros Hbind Hname. split.
  - intros e Huser. run_handler. rewrite Hbind, Hname.
    cbn [fst snd ctx srv logged body responses]. rewrite Huser.
    now destruct (errors.Is e ErrNoRows).
  - intros user e Huser Hkey. run_handler. rewrite Hbind, Hname.
    cbn [fst snd ctx srv logged body responses]. now rewrite Huser, Hkey.
Qed.

(** X9. [OnPubKey] logs nothing when the username does not decode, and
    nothing when it reaches a verdict, be the key accepted or refused. *)
Theorem OnPubKey_silent_paths (w : World)
    (req : auth.PublicKeyAuthRequest.t) :
  BindJSON_pubkey (body (ctx w)) = Ok req ->
  (forall e,
      GetInfo (auth.PublicKeyAuthRequest.Username req) = Err e ->
      logged (snd (OnPubKey w)) = logged w) /\
  (forall code verdict,
      answer OnPubKey w = responses (ctx w) ++ [(code, JAuth verdict)] ->
      logged (snd (OnPubKey w)) = logged w).
Proof.
  intros Hbind. split.
  - intros e Hname. run_handler. now rewrite Hbind, Hname.
  - intros code verdict. run_handler. rewrite Hbind. by_paths;
      intros Hans; try reflexivity;
      apply snoc_inj in Hans; discriminate.
Qed.

(** X10. [OnPubKey] leaves the server (user store and fingerprints) as it
    found it, whatever the request; the request body it does not leave:
    what remains of it is what the JSON decoder left unread. *)
Theorem OnPubKey_keeps_server (w : World) :
  srv (snd (OnPubKey w)) = srv w /\
  body (ctx (snd (OnPubKey w))) = BindJSON_unread (body (ctx w)).
Proof.
  run_handler. by_paths; now split.
Qed.

(** X11. [OnConfig] never logs. *)
Theorem OnConfig_never_logs (w : World) :
  logged (snd (OnConfig w)) = logged w.
Proof.
  run_handler. by_paths; reflexivity.
Qed.

(** X12. [OnConfig] does not consult the user store: its answer is fixed
    by the request body and the server's fingerprints, so an owner without
    a record is routed like any other. *)
Theorem OnConfig_ignores_store (w1 w2 : World) :
  body (ctx w1) = body (ctx w2) ->
  serverFingerPrints (srv w1) = serverFingerPrints (srv w2) ->
  responses (ctx w1) = responses (ctx w2) ->
  answer OnConfig w1 = answer OnConfig w2.
Proof.
  destruct w1 as [[b1 r1] [q1 f1] l1], w2 as [[b2 r2] [q2 f2] l2].
  cbn [fst snd ctx srv logged body responses serverFingerPrints].
  intros -> -> ->. run_handler. by_paths; reflexivity.
Qed.

(** X13. [OnPubKey] does not read the fingerprints: its answer and what it
    logs are fixed by the request body and the user store. *)
Theorem OnPubKey_ignores_fingerprints (w1 w2 : World) :
  body (ctx w1) = body (ctx w2) ->
  Queries (srv w1) = Queries (srv w2) ->
  responses (ctx w1) = responses (ctx w2) ->
  logged w1 = logged w2 ->
  answer OnPubKey w1 = answer OnPubKey w2 /\
  logged (snd (OnPubKey w1)) = logged (snd (OnPubKey w2)).
Proof.
  destruct w1 as [[b1 r1] [q1 f1] l1], w2 as [[b2 r2] [q2 f2] l2].
  cbn [fst snd ctx srv logged body responses Queries].
  intros -> -> -> ->. run_handler. by_paths; now split.
Qed.

(** X14. The owner is looked up before the candidate key is parsed: when
    the lookup fails, the answer is the same whatever key material the
    request carries, parseable or not. *)
Theorem OnPubKey_lookup_before_parse (w1 w2 : World)
    (req1 req2 : auth.PublicKeyAuthRequest.t) (owner target : string)
    (e : error) :
  Queries (srv w1) = Queries (srv w2) ->
  responses (ctx w1) = responses (ctx w2) ->
  BindJSON_pubkey (body (ctx w1)) = Ok req1 ->
  BindJSON_pubkey (body (ctx w2)) = Ok req2 ->
  auth.PublicKeyAuthRequest.Username req1 =
  auth.PublicKeyAuthRequest.Username req2 ->
  GetInfo (auth.PublicKeyAuthRequest.Username req1) = Ok (owner, target) ->
  GetUser (Queries (srv w1)) owner = Err e ->
  answer OnPubKey w1 = answer OnPubKey w2.
Proof.
  intros Hq Hresp Hb1 Hb2 Huser Hname Hlookup. run_handler.
  rewrite Hb1, Hb2, <- Huser, Hname.
  cbn [fst snd ctx srv logged body responses].
  rewrite <- Hq, Hlookup.
  destruct (errors.Is e ErrNoRows);
    cbn [fst snd ctx srv logged body responses]; now rewrite Hresp.
Qed.

(** X15. No call changes the answer to a later call: after [OnPubKey] or
    [OnConfig] has run on any request, either handler answers the next
    request as it would have answered it first.  In particular a refused
    key does not count against the next attempt. *)
Theorem later_calls_unaffected (w : World) (b1 b2 : string) :
  answer OnPubKey (next_request (snd (OnPubKey (next_request w b1))) b2) =
  answer OnPubKey (next_request w b2) /\
  answer OnConfig (next_request (snd (OnPubKey (next_request w b1))) b2) =
  answer OnConfig (next_request w b2) /\
  answer OnPubKey (next_request (snd (OnConfig (next_request w b1))) b2) =
  answer OnPubKey (next_request w b2) /\
  answer OnConfig (next_request (snd (OnConfig (next_request w b1))) b2) =
  answer OnConfig (next_request w b2).
Proof.
  assert (Hpub : srv (snd (OnPubKey (next_request w b1))) = srv w)
    by (run_handler; by_paths; reflexivity).
  assert (Hcfg : srv (snd (OnConfig (next_request w b1))) = srv w)
    by (run_handler; by_paths; reflexivity).
  unfold next_request in *. rewrite Hpub, Hcfg.
  repeat match goal with
         | |- context [logged (snd ?run)] =>
             generalize (logged (snd run)); intros ?
         end.
  repeat split; run_handler; by_paths; reflexivity.
Qed.

Lemma Is_wrapped_no_rows (msgs : list string) :
  errors.Is (fold_right ErrWrap ErrNoRows msgs) ErrNoRows = true.
Proof.
  induction msgs as [|m msgs IH]; [reflexivity|].
  cbn [fold_right errors.Is]. rewrite IH. apply Bool.orb_true_r.
Qed.

(** A wrapper never has the mark of the sentinel: its chain of types is
    longer. *)
Lemma wrapper_mark (msg : string) (cause : error) :
  errors.equalMarks (ErrWrap msg cause) ErrNoRows = false.
Proof.
  unfold errors.equalMarks. cbn [errors.types errors.equalTypes].
  replace (String.eqb "fmt/*fmt.wrapError" "errors/*errors.errorString")
    with false by reflexivity.
  apply Bool.andb_false_r.
Qed.

Lemma Is_wrapped_new (msgs : list string) (msg : string) :
  errors.Is (fold_right ErrWrap (ErrNew msg) msgs) ErrNoRows =
  String.eqb msg "no rows in result set".
Proof.
  induction msgs as [|m msgs IH].
  - unfold fold_right, errors.Is, errors.equalMarks.
    cbn [errors.Error errors.types errors.equalTypes].
    replace (String.eqb "errors/*errors.errorString"
               "errors/*errors.errorString") with true by reflexivity.
    now destruct (String.eqb msg "no rows in result set").
  - cbn [fold_right errors.Is]. now rewrite wrapper_mark, IH.
Qed.

(** X16. The store error is tested with [errors.Is] of
    [github.com/cockroachdb/errors]: an error that wraps [pgx.ErrNoRows],
    however deeply, is answered "user not found", and so is one that wraps
    another [errors.New] with the sentinel's message, "no rows in result
    set"; one that wraps an [errors.New] with any other message is answered
    "Internal error". *)
Theorem OnPubKey_wrapped_no_rows (w : World)
    (req : auth.PublicKeyAuthRequest.t) (owner target : string)
    (msgs : list string) :
  BindJSON_pubkey (body (ctx w)) = Ok req ->
  GetInfo (auth.PublicKeyAuthRequest.Username req) = Ok (owner, target) ->
  (GetUser (Queries (srv w)) owner = Err (fold_right ErrWrap ErrNoRows msgs) ->
   answer OnPubKey w =
   responses (ctx w) ++ [(500, JString "user not found")]) /\
  (GetUser (Queries (srv w)) owner =
   Err (fold_right ErrWrap (ErrNew "no rows in result set") msgs) ->
   answer OnPubKey w =
   responses (ctx w) ++ [(500, JString "user not found")]) /\
  (forall msg,
      msg <> "no rows in result set" ->
      GetUser (Queries (srv w)) owner =
      Err (fold_right ErrWrap (ErrNew msg) msgs) ->
      answer OnPubKey w =
      responses (ctx w) ++ [(500, JString "Internal error")]).
Proof.
  intros Hbind Hname. repeat apply conj.
  - intros Huser. run_handler. rewrite Hbind, Hname.
    cbn [fst snd ctx srv logged observed body responses].
    now rewrite Huser, Is_wrapped_no_rows.
  - intros Huser. run_handler. rewrite Hbind, Hname.
    cbn [fst snd ctx srv logged observed body responses].
    now rewrite Huser, Is_wrapped_new.
  - intros msg Hmsg Huser. run_handler. rewrite Hbind, Hname.
    cbn [fst snd ctx srv logged observed body responses].
    rewrite Huser, Is_wrapped_new.
    now rewrite (proj2 (String.eqb_neq msg "no rows in result set") Hmsg).
Qed.

(** X17. When the request body binds, the status sent is the code of the
    handler's one call of [c.JSON]: nothing has written the header before
    it. *)
Theorem bound_request_status (w : World) :
  status (ctx w) = None ->
  (forall req,
      BindJSON_config (body (ctx w)) = Ok req ->
      exists code p,
        answer OnConfig w = responses (ctx w) ++ [(code, p)] /\
        status (ctx (snd (OnConfig w))) = Some code) /\
  (forall req,
      BindJSON_pubkey (body (ctx w)) = Ok req ->
      exists code p,
        answer OnPubKey w = responses (ctx w) ++ [(code, p)] /\
        status (ctx (snd (OnPubKey w))) = Some code).
Proof.
  intros Hfresh. split; intros req Hbind; run_handler; rewrite Hbind;
    by_paths; rewrite Hfresh; eexists; eexists; split; reflexivity.
Qed.

(** X18. The keys are compared only on the way to a verdict: a run of
    [OnPubKey] that answers 500 has run no comparison, and no run of
    [OnConfig] does. *)
Theorem compared_only_for_a_verdict (w : World) :
  (forall p,
      answer OnPubKey w = responses (ctx w) ++ [(500, p)] ->
      observed (snd (OnPubKey w)) = observed w) /\
  observed (snd (OnConfig w)) = observed w.
Proof.
  split.
  - intros p. run_handler. by_paths; intros Hans; try reflexivity;
      apply snoc_inj in Hans; discriminate.
  - run_handler. by_paths; reflexivity.
Qed.

End AnswerFacts.

(** ** More scenarios *)

Section MoreScenarios.

Import Demo.

(** Two runs against [K], mismatching in the first and in the last byte,
    leak alike, hence compared slices of one length. *)
Lemma ConstantTimeCompare_run_reveals_lengths_witness :
  Nat.eqb (List.length (bytes_of_string "BAAAC3Nz"))
          (List.length (bytes_of_string K)) =
  Nat.eqb (List.length (bytes_of_string "AAAAC3Ny"))
          (List.length (bytes_of_string K)).
Proof.
  destruct (ConstantTimeCompare_run_reveals_lengths
              (bytes_of_string "BAAAC3Nz") (bytes_of_string K)
              (bytes_of_string "AAAAC3Ny") (bytes_of_string K) eq_refl)
    as [Hsame _].
  exact Hsame.
Defined.

(** An empty body binds to neither request: the status sent is 400. *)
Lemma unbound_request_rejected_witness :
  status (ctx (snd (OnConfig (incoming server "")))) = Some 400 /\
  answer OnConfig (incoming server "") = [(500, JError (ErrNew "EOF"))] /\
  status (ctx (snd (OnPubKey (incoming server "")))) = Some 400 /\
  logged (snd (OnPubKey (incoming server ""))) =
    [LogError (ErrNew "EOF") "failed to bind the json"].
Proof.
  destruct (@unbound_request_rejected collaborators (incoming server "")
              (ErrNew "EOF") eq_refl) as [Hconfig Hpubkey].
  destruct (Hconfig eq_refl) as (Hstatus & Hanswer & _).
  destruct (Hpubkey eq_refl) as (Hstatus' & _ & Hlog).
  repeat split; assumption.
Defined.

(** What is logged for [bob], who has no record, for [mallory], whose
    lookup fails, and for [alice] offering no key. *)
Lemma OnPubKey_logged_failures_witness :
  logged (snd (OnPubKey (pubkey_call "bob#gpu-box-1" K))) =
    [LogError ErrNoRows "user not found"] /\
  logged (snd (OnPubKey (pubkey_call "mallory#gpu-box-1" K))) =
    [LogError (ErrWrap "query" (ErrNew "connection refused"))
       "db query failed: query: connection refused"] /\
  logged (snd (OnPubKey (pubkey_call "alice#gpu-box-1" ""))) =
    [LogError (ErrNew "ssh: no key found") "failed to parse key"].
Proof.
  repeat apply conj.
  - destruct (@OnPubKey_logged_failures collaborators
                (pubkey_call "bob#gpu-box-1" K)
                (pubkey_request "bob#gpu-box-1" K) "bob" "gpu-box-1"
                eq_refl eq_refl) as [Hlookup _].
    exact (Hlookup ErrNoRows eq_refl).
  - destruct (@OnPubKey_logged_failures collaborators
                (pubkey_call "mallory#gpu-box-1" K)
                (pubkey_request "mallory#gpu-box-1" K) "mallory" "gpu-box-1"
                eq_refl eq_refl) as [Hlookup _].
    exact (Hlookup (ErrWrap "query" (ErrNew "connection refused")) eq_refl).
  - destruct (@OnPubKey_logged_failures collaborators
                (pubkey_call "alice#gpu-box-1" "")
                (pubkey_request "alice#gpu-box-1" "") "alice" "gpu-box-1"
                eq_refl eq_refl) as [_ Hparse].
    exact (Hparse alice (ErrNew "ssh: no key found") eq_refl eq_refl).
Defined.

(** Nothing is logged for a malformed username, nor for a refused key. *)
Lemma OnPubKey_silent_paths_witness :
  logged (snd (OnPubKey (pubkey_call "malformed-no-delimiter" K))) = [] /\
  logged (snd (OnPubKey (pubkey_call "alice#gpu-box-1" "AAAAC3Ny"))) = [].
Proof.
  split.
  - destruct (@OnPubKey_silent_paths collaborators
                (pubkey_call "malformed-no-delimiter" K)
                (pubkey_request "malformed-no-delimiter" K) eq_refl)
      as [Hname _].
    exact (Hname sshname.MalformedIdentity eq_refl).
  - destruct (@OnPubKey_silent_paths collaborators
                (pubkey_call "alice#gpu-box-1" "AAAAC3Ny")
                (pubkey_request "alice#gpu-box-1" "AAAAC3Ny") eq_refl)
      as [_ Hverdict].
    exact (Hverdict 200 (auth.ResponseBody.Build false) eq_refl).
Defined.

(** [alice] is routed alike with and without a record in the store. *)
Lemma OnConfig_ignores_store_witness :
  answer OnConfig (incoming server_without_users "alice#gpu-box-1") =
  answer OnConfig (config_call "alice#gpu-box-1").
Proof.
  exact (@OnConfig_ignores_store collaborators
           (incoming server_without_users "alice#gpu-box-1")
           (config_call "alice#gpu-box-1") eq_refl eq_refl eq_refl).
Defined.

(** [alice] is accepted alike whatever fingerprints the server pins. *)
Lemma OnPubKey_ignores_fingerprints_witness :
  answer OnPubKey (incoming server_repinned "alice#gpu-box-1 AAAAC3Nz") =
  answer OnPubKey (pubkey_call "alice#gpu-box-1" K).
Proof.
  destruct (@OnPubKey_ignores_fingerprints collaborators
              (incoming server_repinned "alice#gpu-box-1 AAAAC3Nz")
              (pubkey_call "alice#gpu-box-1" K)
              eq_refl eq_refl eq_refl eq_refl) as [Hanswer _].
  exact Hanswer.
Defined.

(** [bob], who has no record, gets the same answer with a key and with
    none. *)
Lemma OnPubKey_lookup_before_parse_witness :
  answer OnPubKey (pubkey_call "bob#gpu-box-1" K) =
  answer OnPubKey (pubkey_call "bob#gpu-box-1" "").
Proof.
  exact (@OnPubKey_lookup_before_parse collaborators
           (pubkey_call "bob#gpu-box-1" K) (pubkey_call "bob#gpu-box-1" "")
           (pubkey_request "bob#gpu-box-1" K)
           (pubkey_request "bob#gpu-box-1" "")
           "bob" "gpu-box-1" ErrNoRows
           eq_refl eq_refl eq_refl eq_refl eq_refl eq_refl eq_refl).
Defined.

(** A missing row wrapped twice is "user not found", and so is a wrapped
    error with the sentinel's text; a wrapped connection failure is
    "Internal error". *)
Lemma OnPubKey_wrapped_no_rows_witness :
  answer OnPubKey (incoming server_wrapping "alice#gpu-box-1 AAAAC3Nz") =
    [(500, JString "user not found")] /\
  answer OnPubKey (incoming server_homemade "alice#gpu-box-1 AAAAC3Nz") =
    [(500, JString "user not found")] /\
  answer OnPubKey (pubkey_call "mallory#gpu-box-1" K) =
    [(500, JString "Internal error")].
Proof.
  repeat apply conj.
  - destruct (@OnPubKey_wrapped_no_rows collaborators
                (incoming server_wrapping "alice#gpu-box-1 AAAAC3Nz")
                (pubkey_request "alice#gpu-box-1" K) "alice" "gpu-box-1"
                ["get user"; "scan"] eq_refl eq_refl) as (Hmissing & _).
    exact (Hmissing eq_refl).
  - destruct (@OnPubKey_wrapped_no_rows collaborators
                (incoming server_homemade "alice#gpu-box-1 AAAAC3Nz")
                (pubkey_request "alice#gpu-box-1" K) "alice" "gpu-box-1"
                ["scan"] eq_refl eq_refl) as (_ & Hhomemade & _).
    exact (Hhomemade eq_refl).
  - destruct (@OnPubKey_wrapped_no_rows collaborators
                (pubkey_call "mallory#gpu-box-1" K)
                (pubkey_request "mallory#gpu-box-1" K) "mallory" "gpu-box-1"
                ["query"] eq_refl eq_refl) as (_ & _ & Hother).
    apply (Hother "connection refused"); [discriminate | reflexivity].
Defined.

(** [alice] is routed with status 200; [bob], who has no record, is
    refused with status 500. *)
Lemma bound_request_status_witness :
  status (ctx (snd (OnConfig (config_call "alice#gpu-box-1")))) = Some 200 /\
  status (ctx (snd (OnPubKey (pubkey_call "bob#gpu-box-1" K)))) = Some 500.
Proof.
  destruct (@bound_request_status collaborators
              (config_call "alice#gpu-box-1") eq_refl) as [Hconfig _].
  destruct (Hconfig (config_request "alice#gpu-box-1") eq_refl)
    as (code & p & Hanswer & Hstatus).
  destruct (@bound_request_status collaborators
              (pubkey_call "bob#gpu-box-1" K) eq_refl) as [_ Hpubkey].
  destruct (Hpubkey (pubkey_request "bob#gpu-box-1" K) eq_refl)
    as (code' & p' & Hanswer' & Hstatus').
  apply snoc_inj in Hanswer. apply snoc_inj in Hanswer'.
  injection Hanswer as <- _. injection Hanswer' as <- _.
  split; assumption.
Defined.

(** No key is compared for [bob], who has no record. *)
Lemma compared_only_for_a_verdict_witness :
  observed (snd (OnPubKey (pubkey_call "bob#gpu-box-1" K))) = [].
Proof.
  destruct (@compared_only_for_a_verdict collaborators
              (pubkey_call "bob#gpu-box-1" K)) as [Hfailed _].
  exact (Hfailed (JString "user not found") eq_refl).
Defined.

End MoreScenarios.
